(** * 3js viewer: the animation holder of the Fox and the viewer lifecycle

    Shallow embedding of
      - [src/app/three-viewer/engine/world/Fox.ts]
        (class [AnimationHolder]; class [Fox]: its constructor,
        [configureModel], [configureAnimation] and [destroy]);
      - [src/app/three-viewer/three-viewer.component.ts]
        (class [ThreeViewerComponent], [ngOnInit], [ngOnDestroy]).

    The TypeScript code is imperative: it mutates objects reached through
    references and may throw.  It is embedded in a state-and-exception monad
    in which a thrown exception keeps the state reached so far, as a
    JavaScript [throw] does. *)

From Stdlib Require Import QArith.
From stdpp Require Import gmap strings list fin_maps.

Open Scope Z_scope.

(** ** JavaScript completions *)

Module Js.

(** The two kinds of exception the code can meet: the [TypeError] that the
    runtime raises when a property is read from [undefined] or a
    non-function is called, and the [Error] built by an explicit
    [throw new Error(message)] statement. *)
Inductive Exception :=
| TypeError
| Error (message : string).

Inductive Completion (A : Type) :=
| Normal (a : A)
| Throw (e : Exception).
Arguments Normal {A} a.
Arguments Throw {A} e.

(** An exception is explicit when a [throw] statement of the program raised it. *)
Definition explicit (e : Exception) : bool :=
  match e with
  | Error _ => true
  | TypeError => false
  end.

Definition M (S A : Type) : Type := S → Completion A * S.

Definition ret {S A} (a : A) : M S A := λ s, (Normal a, s).

Definition bind {S A B} (m : M S A) (k : A → M S B) : M S B :=
  λ s, match m s with
       | (Normal a, s') => k a s'
       | (Throw e, s') => (Throw e, s')
       end.

Definition throw {S A} (e : Exception) : M S A := λ s, (Throw e, s).
Definition get {S} : M S S := λ s, (Normal s, s).
Definition modify {S} (f : S → S) : M S unit := λ s, (Normal tt, f s).

(** [times n m]: the call [m] made [n] times in a row. *)
Fixpoint times {S} (n : nat) (m : M S unit) : M S unit :=
  match n with
  | O => ret tt
  | S n' => bind m (λ _, times n' m)
  end.

End Js.

Import Js.

Declare Scope js_scope.
Delimit Scope js_scope with js.
Notation "x ← m ; k" := (Js.bind m (λ x, k))
  (at level 20, m at level 100, k at level 200, only parsing) : js_scope.
Notation "m ;; k" := (Js.bind m (λ _, k))
  (at level 100, k at level 200, right associativity) : js_scope.
Open Scope js_scope.

(** ** Fox.ts *)

Module Fox.

(** Objects are reached through references.  An [AnimationAction] lives in
    the [AnimationMixer] that created it; its reference is its index there. *)
Abbreviation ref := nat.

(** An animation clip of the GLTF file, by identity. *)
Abbreviation AnimationClip := nat.

(** What indexing [this.actions] can evaluate to.  [actions] is created by
    the literal [{}], so a name that is not an own key is looked up in
    [Object.prototype]. *)
Inductive JsValue :=
| VUndefined
| VInherited (name : string)
| VAction (r : ref).

#[global] Instance JsValue_eq_dec : EqDecision JsValue.
Proof. solve_decision. Defined.

(** A weight fade scheduled on an action: towards 1 or towards 0, over
    [duration] seconds. *)
Inductive Fade :=
| FadeIn (duration : Z)
| FadeOut (duration : Z).

(** The part of three.js' [AnimationAction] that [reset], [play] and
    [crossFadeFrom] read and write.  [time] is the local time of the action;
    the holder only ever writes zero to it. *)
Record AnimationAction := mkAction {
  clip : AnimationClip;
  time : Z;
  paused : bool;
  enabled : bool;
  scheduled : bool;            (* activated in its mixer *)
  fading : option Fade;
  warping : bool;
}.

(** The calls made on actions, in order. *)
Inductive Call :=
| CallReset (this : ref)
| CallPlay (this : ref)
| CallCrossFadeFrom (this : ref) (fadeOutAction : JsValue) (duration : Z) (warp : bool).

(** [class AnimationHolder]: the fields [actions], [mixer] and [current].
    [mixer] holds the actions created so far; [calls] records the method
    calls made on them. *)
Record AnimationHolder := mkHolder {
  actions : gmap string JsValue;
  mixer : list AnimationAction;
  current : option ref;
  calls : list Call;
}.

(** The property names of [Object.prototype]. *)
Definition Object_prototype : list string :=
  [ "constructor"; "__defineGetter__"; "__defineSetter__"; "hasOwnProperty";
    "__lookupGetter__"; "__lookupSetter__"; "isPrototypeOf";
    "propertyIsEnumerable"; "toString"; "valueOf"; "__proto__";
    "toLocaleString" ]%string.

(** [obj[name]] *)
Definition js_get (obj : gmap string JsValue) (name : string) : JsValue :=
  match obj !! name with
  | Some v => v
  | None =>
      if bool_decide (name ∈ Object_prototype) then VInherited name
      else VUndefined
  end.

(** [this.actions[name] = v] *)
Definition js_set (name : string) (v : JsValue) : M AnimationHolder unit :=
  modify (λ h, mkHolder (<[name := v]> (actions h)) (mixer h) (current h) (calls h)).

(** The receiver of a method call [v.method(...)]: anything but an action has
    no such method, and the call raises a [TypeError]. *)
Definition receiver (v : JsValue) : M AnimationHolder ref :=
  match v with
  | VAction r => ret r
  | VInherited _ | VUndefined => throw TypeError
  end.

Definition record (c : Call) : M AnimationHolder unit :=
  modify (λ h, mkHolder (actions h) (mixer h) (current h) (calls h ++ [c])).

Definition update (r : ref) (f : AnimationAction → AnimationAction)
  : M AnimationHolder unit :=
  modify (λ h, mkHolder (actions h) (alter f r (mixer h)) (current h) (calls h)).

(** *** three.js: [AnimationAction] and [AnimationMixer.clipAction] *)

Definition new_AnimationAction (c : AnimationClip) : AnimationAction :=
  mkAction c 0 false true false None false.

(** [reset()]: un-pauses, enables, rewinds to time zero, drops any fade or warp. *)
Definition reset_state (a : AnimationAction) : AnimationAction :=
  mkAction (clip a) 0 false true (scheduled a) None false.

(** [play()]: activates the action in its mixer. *)
Definition play_state (a : AnimationAction) : AnimationAction :=
  mkAction (clip a) (time a) (paused a) (enabled a) true (fading a) (warping a).

Definition fadeIn (duration : Z) (a : AnimationAction) : AnimationAction :=
  mkAction (clip a) (time a) (paused a) (enabled a) (scheduled a)
           (Some (FadeIn duration)) (warping a).

Definition fadeOut (duration : Z) (a : AnimationAction) : AnimationAction :=
  mkAction (clip a) (time a) (paused a) (enabled a) (scheduled a)
           (Some (FadeOut duration)) (warping a).

Definition warp_state (a : AnimationAction) : AnimationAction :=
  mkAction (clip a) (time a) (paused a) (enabled a) (scheduled a) (fading a) true.

Definition AnimationAction_reset (v : JsValue) : M AnimationHolder unit :=
  this ← receiver v;
  record (CallReset this);;
  update this reset_state.

Definition AnimationAction_play (v : JsValue) : M AnimationHolder unit :=
  this ← receiver v;
  record (CallPlay this);;
  update this play_state.

(** [crossFadeFrom(fadeOutAction, duration, warp)]:
    [fadeOutAction.fadeOut(duration); this.fadeIn(duration);] and, with
    [warp], a time-scale warp on both. *)
Definition AnimationAction_crossFadeFrom
    (v : JsValue) (fadeOutAction : JsValue) (duration : Z) (warp : bool)
  : M AnimationHolder unit :=
  this ← receiver v;
  record (CallCrossFadeFrom this fadeOutAction duration warp);;
  out ← receiver fadeOutAction;
  update out (fadeOut duration);;
  update this (fadeIn duration);;
  if warp then (update out warp_state;; update this warp_state) else ret tt.

(** [mixer.clipAction(clip)]: the action of the mixer for this clip, created
    on first use.  [gltf.animations[i]] is [undefined] past the end of the
    array, and [clipAction] then fails on reading [clip.uuid]. *)
Definition clipAction (c : option AnimationClip) : M AnimationHolder JsValue :=
  match c with
  | None => throw TypeError
  | Some c =>
      h ← get;
      match list_find (λ a, clip a = c) (mixer h) with
      | Some (r, _) => ret (VAction r)
      | None =>
          modify (λ h, mkHolder (actions h) (mixer h ++ [new_AnimationAction c])
                                (current h) (calls h));;
          ret (VAction (length (mixer h)))
      end
  end.

(** *** The source *)

(** [AnimationHolder.play(name)] *)
Definition play (name : string) : M AnimationHolder unit :=
  this ← get;
  let newAction := js_get (actions this) name in
  let oldAction := js_get (actions this) "current" in
  AnimationAction_reset newAction;;
  AnimationAction_play newAction;;
  AnimationAction_crossFadeFrom newAction oldAction 1 false;;
  js_set "current" newAction.

(** [new AnimationHolder(new AnimationMixer(this.modelGroup))]: no action
    yet, and the optional [current] parameter is left out. *)
Definition new_AnimationHolder : AnimationHolder :=
  mkHolder ∅ [] None [].

(** [Fox.configureAnimation()], on the animations of the GLTF file.  The
    debug folder only adds buttons that call [play] later on. *)
Definition configureAnimation (animations : list AnimationClip)
  : M AnimationHolder unit :=
  (a ← clipAction (animations !! 0%nat); js_set "idle" a);;
  (a ← clipAction (animations !! 1%nat); js_set "walking" a);;
  (a ← clipAction (animations !! 2%nat); js_set "running" a);;
  (this ← get; js_set "current" (js_get (actions this) "idle"));;
  (this ← get; AnimationAction_play (js_get (actions this) "current")).

(** The holder of a Fox: built by the constructor, then driven by [play]
    (the buttons of the debug folder call it with "idle", "walking" and
    "running") and by [Fox.update].  [update] runs
    [this.animationHolder.mixer.update(...)], which advances the actions of
    the mixer in place and neither adds nor removes one; any such change of
    the mixer is a step. *)
Inductive built : AnimationHolder → Prop :=
| built_new animations h :
    configureAnimation animations new_AnimationHolder = (Normal tt, h) →
    built h
| built_play name h r h' :
    built h →
    play name h = (r, h') →
    built h'
| built_update h m :
    built h →
    length m = length (mixer h) →
    built (mkHolder (actions h) m (current h) (calls h)).

(** The mixer after a cross-fade of [o] into [n]. *)
Definition faded (n o : ref) (m : list AnimationAction) : list AnimationAction :=
  alter (fadeIn 1) n (alter (fadeOut 1) o (alter play_state n (alter reset_state n m))).

(** Every entry of [actions] is an action of the mixer, as the type of the
    field says. *)
Definition well_typed (h : AnimationHolder) : Prop :=
  ∀ k v, actions h !! k = Some v → ∃ r, v = VAction r ∧ (r < length (mixer h))%nat.

(** "current" is bound to an action of the mixer, the one that some
    animation name is bound to. *)
Definition current_valid (h : AnimationHolder) : Prop :=
  ∃ r a name,
    actions h !! "current" = Some (VAction r) ∧
    mixer h !! r = Some a ∧
    name ≠ "current" ∧
    actions h !! name = Some (VAction r).

(** A sample holder: the three actions of the Fox, "idle" current. *)
Definition sample : AnimationHolder :=
  snd (configureAnimation [10; 11; 12]%nat new_AnimationHolder).

(** A holder on which only "idle" has been set: [configureAnimation] after
    its first line. *)
Definition bare : AnimationHolder :=
  mkHolder {[ "idle"%string := VAction 0%nat ]} [new_AnimationAction 10%nat] None [].

End Fox.

(** ** three-viewer.component.ts *)

Module ThreeViewer.

(** The canvas element behind [canvasRef.nativeElement], by identity. *)
Abbreviation HTMLCanvasElement := nat.

Record ElementRef := mkElementRef { nativeElement : HTMLCanvasElement }.

(** The payloads handed to the consumers.  The component only forwards them. *)
Abbreviation ExperienceTime := nat.
Abbreviation ScreenSize := nat.
Abbreviation PointerEvent := nat.

(** The calls an engine receives. *)
Inductive EngineCall :=
| EngineUpdate (experienceTime : ExperienceTime)
| EngineResize (size : ScreenSize)
| EngineReactToPointer (pointerEvent : PointerEvent)
| EngineDestroy.

#[global] Instance EngineCall_eq_dec : EqDecision EngineCall.
Proof. solve_decision. Defined.

(** Modelled from the spec: the class [Engine] is declared in
    [./engine/Engine], outside the two files embedded here.  The spec says that it is built on the
    canvas element, "receives per-frame time, resize, and pointer events"
    and is released by [destroy]; an engine is its canvas and the calls it
    has received, in order. *)
Record Engine := mkEngine {
  canvas : HTMLCanvasElement;
  received : list EngineCall;
}.

(** The three arrow functions that [ngOnInit] hands to the services:
    [(experienceTime) => this.engine?.update(experienceTime)],
    [(size) => this.engine?.resize(size)] and
    [(pointerEvent) => this.engine?.reactToPointer(pointerEvent)]. *)
Inductive Consumer := forwardUpdate | forwardResize | forwardReactToPointer.

#[global] Instance Consumer_eq_dec : EqDecision Consumer.
Proof. solve_decision. Defined.

(** Modelled from the spec: [TimeService], [ScreenSizeService] and
    [PointerService] are declared under [./engine/service], outside the two
    files embedded here.  The spec calls a
    consumer "a registered callback invoked by an external event source
    when that event occurs" and says that "one time source is started"; a
    service is the consumer set on it, and the time service also counts its
    launches. *)
Record TimeService := mkTimeService {
  timeConsumer : option Consumer;
  launches : nat;
}.
Record ScreenSizeService := mkScreenSizeService { sizeConsumer : option Consumer }.
Record PointerService := mkPointerService { pointerConsumer : option Consumer }.

(** What the component does to the code around it, in order. *)
Inductive Effect :=
| NewEngine (canvas : HTMLCanvasElement)
| TimeSetConsumer (c : Consumer)
| TimeLaunch
| ScreenSizeSetConsumer (c : Consumer)
| PointerSetConsumer (c : Consumer)
| CallEngine (c : EngineCall).

#[global] Instance Effect_eq_dec : EqDecision Effect.
Proof. solve_decision. Defined.

(** [class ThreeViewerComponent], with the three injected services, and the
    trace of its effects. *)
Record ThreeViewerComponent := mkComponent {
  canvasRef : option ElementRef;
  engine : option Engine;
  timeService : TimeService;
  screenSizeService : ScreenSizeService;
  pointerService : PointerService;
  trace : list Effect;
}.

Abbreviation Method := (M ThreeViewerComponent).

Definition effect (e : Effect) : Method unit :=
  modify (λ c, mkComponent (canvasRef c) (engine c) (timeService c)
                           (screenSizeService c) (pointerService c) (trace c ++ [e])).

Definition set_engine (e : option Engine) : Method unit :=
  modify (λ c, mkComponent (canvasRef c) e (timeService c)
                           (screenSizeService c) (pointerService c) (trace c)).

(** [new Engine(canvas)] *)
Definition new_Engine (cv : HTMLCanvasElement) : Method Engine :=
  effect (NewEngine cv);;
  ret (mkEngine cv []).

(** [this.engine?.method(...)]: skipped when [this.engine] is undefined;
    otherwise the engine, an object updated in place, receives the call. *)
Definition optional_Engine_call (k : EngineCall) : Method unit :=
  this ← get;
  match engine this with
  | Some e =>
      effect (CallEngine k);;
      set_engine (Some (mkEngine (canvas e) (received e ++ [k])))
  | None => ret tt
  end.

(** Modelled from the spec: [setConsumer] and [launch] of the services.
    [setConsumer] registers the callback with the service; [launch] starts
    the time source, whose ticks come later, from the event loop. *)
Definition TimeService_setConsumer (k : Consumer) : Method unit :=
  effect (TimeSetConsumer k);;
  modify (λ c, mkComponent (canvasRef c) (engine c)
                           (mkTimeService (Some k) (launches (timeService c)))
                           (screenSizeService c) (pointerService c) (trace c)).

Definition TimeService_launch : Method unit :=
  effect TimeLaunch;;
  modify (λ c, mkComponent (canvasRef c) (engine c)
                           (mkTimeService (timeConsumer (timeService c))
                                          (S (launches (timeService c))))
                           (screenSizeService c) (pointerService c) (trace c)).

Definition ScreenSizeService_setConsumer (k : Consumer) : Method unit :=
  effect (ScreenSizeSetConsumer k);;
  modify (λ c, mkComponent (canvasRef c) (engine c) (timeService c)
                           (mkScreenSizeService (Some k)) (pointerService c) (trace c)).

Definition PointerService_setConsumer (k : Consumer) : Method unit :=
  effect (PointerSetConsumer k);;
  modify (λ c, mkComponent (canvasRef c) (engine c) (timeService c)
                           (screenSizeService c) (mkPointerService (Some k)) (trace c)).

(** *** The source *)

(** [ngOnInit()] *)
Definition ngOnInit : Method unit :=
  this ← get;
  match canvasRef this with
  | None => throw (Error "Canvas should be defined to bootstrap the WebGL Engine")
  | Some canvasRef =>
      (e ← new_Engine (nativeElement canvasRef); set_engine (Some e));;
      TimeService_setConsumer forwardUpdate;;
      TimeService_launch;;
      ScreenSizeService_setConsumer forwardResize;;
      PointerService_setConsumer forwardReactToPointer
  end.

(** [ngOnDestroy()] *)
Definition ngOnDestroy : Method unit :=
  optional_Engine_call EngineDestroy.

(** The body of each consumer, called by its service with the payload. *)
Definition consume (k : Consumer) (payload : nat) : Method unit :=
  match k with
  | forwardUpdate => optional_Engine_call (EngineUpdate payload)
  | forwardResize => optional_Engine_call (EngineResize payload)
  | forwardReactToPointer => optional_Engine_call (EngineReactToPointer payload)
  end.

(** Modelled from the spec: an event of a service, whose code is outside the
    two files embedded here.  "A registered callback invoked by an external event
    source when that event occurs": the service calls the consumer it holds,
    if any, with the payload. *)
Definition TimeService_tick (experienceTime : ExperienceTime) : Method unit :=
  this ← get;
  match timeConsumer (timeService this) with
  | Some k => consume k experienceTime
  | None => ret tt
  end.

Definition ScreenSizeService_resize (size : ScreenSize) : Method unit :=
  this ← get;
  match sizeConsumer (screenSizeService this) with
  | Some k => consume k size
  | None => ret tt
  end.

Definition PointerService_pointer (pointerEvent : PointerEvent) : Method unit :=
  this ← get;
  match pointerConsumer (pointerService this) with
  | Some k => consume k pointerEvent
  | None => ret tt
  end.

(** The component that a call on its engine leaves behind. *)
Definition called (k : EngineCall) (c : ThreeViewerComponent) : ThreeViewerComponent :=
  match engine c with
  | Some e =>
      mkComponent (canvasRef c) (Some (mkEngine (canvas e) (received e ++ [k])))
                  (timeService c) (screenSizeService c) (pointerService c)
                  (trace c ++ [CallEngine k])
  | None => c
  end.

(** How many times the engine of the component has been released. *)
Definition releases (c : ThreeViewerComponent) : nat :=
  match engine c with
  | Some e => length (filter (λ k, k = EngineDestroy) (received e))
  | None => 0
  end.

(** The consumers that the services hold. *)
Definition registered (c : ThreeViewerComponent) : list Consumer :=
  option_list (timeConsumer (timeService c)) ++
  option_list (sizeConsumer (screenSizeService c)) ++
  option_list (pointerConsumer (pointerService c)).

(** A component as the framework creates it: services without consumer,
    no engine yet. *)
Definition new_component (cv : option ElementRef) : ThreeViewerComponent :=
  mkComponent cv None (mkTimeService None 0) (mkScreenSizeService None)
              (mkPointerService None) [].

(** A component after a successful [ngOnInit] on canvas 7. *)
Definition running : ThreeViewerComponent :=
  snd (ngOnInit (new_component (Some (mkElementRef 7%nat)))).

End ThreeViewer.

(** ** Predicates on holders and mixers *)

Module Holder.
Import Fox.

(** [m'] still has every action of [m], at the same reference. *)
Definition extends (m m' : list AnimationAction) : Prop :=
  ∀ i a, m !! i = Some a → m' !! i = Some a.

(** No action of the mixer has been started. *)
Definition idle_mixer (m : list AnimationAction) : Prop :=
  Forall (λ a, scheduled a = false) m.

(** The keys of [actions] are "idle", "walking", "running" and "current", all
    bound to actions of the mixer, and "current" to one of the three others. *)
Definition four_keys (h : AnimationHolder) : Prop :=
  ∃ r0 r1 r2 rc,
    actions h = <["current" := VAction rc]>
                  (<["running" := VAction r2]>
                     (<["walking" := VAction r1]>
                        (<["idle" := VAction r0]> ∅))) ∧
    rc ∈ [r0; r1; r2] ∧
    (r0 < length (mixer h))%nat ∧
    (r1 < length (mixer h))%nat ∧
    (r2 < length (mixer h))%nat.

End Holder.

(** ** Fox.ts: the class [Fox] *)

Module FoxObject.
Import Fox.

(** Objects of the scene graph are reached through references. *)
Abbreviation ObjectRef := nat.

(** The fields of a three.js [Object3D] that [Fox] reads and writes:
    [isMesh] tells whether the object is an instance of [Mesh]; [scale] is
    the [Vector3] of that name. *)
Record Object3DFields := mkFields {
  isMesh : bool;
  castShadow : bool;
  scale : Q * Q * Q;
}.

(** An [Object3D] with its [children]. *)
#[warnings="-register-all"]
Inductive Object3D :=
| Object3D_node (fields : Object3DFields) (children : list Object3D).

(** three.js, [Object3D.traverse(callback)]: the callback runs on the object,
    then on every child in turn, recursively. *)
Fixpoint traverse (callback : Object3DFields → Object3DFields) (o : Object3D)
  : Object3D :=
  match o with
  | Object3D_node f children =>
      Object3D_node (callback f) (map (traverse callback) children)
  end.

(** three.js, [scale.set(x, y, z)] on an object. *)
Definition scale_set (x y z : Q) (o : Object3D) : Object3D :=
  match o with
  | Object3D_node f children =>
      Object3D_node (mkFields (isMesh f) (castShadow f) (x, y, z)) children
  end.

(** What the GLTF loader made of a file: [gltf.scene], the root group of the
    model, and [gltf.animations]. *)
Record GLTF := mkGLTF {
  GLTF_scene : ObjectRef;
  GLTF_animations : list AnimationClip;
}.

(** A folder of the debug panel (lil-gui): its title and the names of its
    controllers, in order. *)
Record GUI := mkGUI {
  title : string;
  controllers : list string;
}.

(** The objects that a [Fox] reaches and changes.

    Modelled from the spec: [ResourceLoader] and [DebugGUI] are declared
    under [../resource] and [../debug], outside the two files embedded here.
    The spec speaks of "a model-loading facility returning a loaded character
    asset keyed by name" and of a debug panel that is "conditionally
    present": [items] maps a name to the loaded GLTF, and [debugUI] is what
    [DebugGUI.getUI()] returns, the folders of the panel or nothing. *)
Record World := mkWorld {
  objects : gmap ObjectRef Object3D;     (* the root objects, by reference *)
  scene : list ObjectRef;                (* [this.scene.children] *)
  items : gmap string GLTF;              (* [this.resourceLoader.items] *)
  debugUI : option (list GUI);
  animationHolder : AnimationHolder;     (* [this.animationHolder] *)
}.

(** The read-only fields of a [Fox]: [gltf], [modelGroup], and [debugFolder],
    the index of its folder in the panel. *)
Record Fox_object := mkFox {
  gltf : GLTF;
  modelGroup : ObjectRef;
  debugFolder : option nat;
}.

Definition set_objects (f : gmap ObjectRef Object3D → gmap ObjectRef Object3D)
  : M World unit :=
  modify (λ w, mkWorld (f (objects w)) (scene w) (items w) (debugUI w) (animationHolder w)).

Definition set_scene (f : list ObjectRef → list ObjectRef) : M World unit :=
  modify (λ w, mkWorld (objects w) (f (scene w)) (items w) (debugUI w) (animationHolder w)).

Definition set_debugUI (f : list GUI → list GUI) : M World unit :=
  modify (λ w, mkWorld (objects w) (scene w) (items w) (f <$> debugUI w) (animationHolder w)).

(** A method of the animation holder, run on [this.animationHolder]. *)
Definition on_holder {A} (m : M AnimationHolder A) : M World A :=
  λ w, let (r, h) := m (animationHolder w) in
       (r, mkWorld (objects w) (scene w) (items w) (debugUI w) h).

(** [children.indexOf(object)] and [children.splice(index, 1)]. *)
Fixpoint remove_first (o : ObjectRef) (children : list ObjectRef) : list ObjectRef :=
  match children with
  | [] => []
  | c :: cs => if decide (c = o) then cs else c :: remove_first o cs
  end.

(** three.js, [scene.remove(object)]. *)
Definition Scene_remove (o : ObjectRef) : M World unit :=
  set_scene (remove_first o).

(** three.js, [scene.add(object)]: the object is detached from its parent,
    here the scene when it is already a child of it, and pushed. *)
Definition Scene_add (o : ObjectRef) : M World unit :=
  set_scene (λ children, remove_first o children ++ [o]).

(** lil-gui, [debugUI.addFolder(title)]: the new folder comes last. *)
Definition GUI_addFolder (folders : list GUI) (t : string) : M World nat :=
  set_debugUI (λ fs, fs ++ [mkGUI t []]);;
  ret (length folders).

(** lil-gui, [folder.add(object, property)]. *)
Definition GUI_add (folder : nat) (property : string) : M World unit :=
  set_debugUI (alter (λ g, mkGUI (title g) (controllers g ++ [property])) folder).

(** The callback of [configureModel]:
    [if (child instanceof Mesh) { child.castShadow = true; }]. *)
Definition castShadowOnMesh (child : Object3DFields) : Object3DFields :=
  if isMesh child then mkFields (isMesh child) true (scale child) else child.

(** [Fox.configureModel()] *)
Definition configureModel (this : Fox_object) : M World unit :=
  set_objects (alter (scale_set 0.02 0.02 0.02) (modelGroup this));;
  Scene_add (modelGroup this);;
  set_objects (alter (traverse castShadowOnMesh) (modelGroup this)).


(** [Fox.configureAnimation()], with the part on the debug folder. *)
Definition configureAnimation (this : Fox_object) : M World unit :=
  on_holder (Fox.configureAnimation (GLTF_animations (gltf this)));;
  match debugFolder this with
  | Some folder =>
      GUI_add folder "playIdle";;
      GUI_add folder "playWalking";;
      GUI_add folder "playRunning"
  | None => ret tt
  end.

(** [new Fox(scene, resourceLoader)].  [items.get('foxModel')] is [undefined]
    when nothing was loaded under that name, and reading [this.gltf.scene]
    then raises a [TypeError]. *)
Definition new_Fox : M World Fox_object :=
  w ← get;
  debugFolder ← match debugUI w with
                | Some folders => (f ← GUI_addFolder folders "fox"; ret (Some f))
                | None => ret None
                end;
  match items w !! "foxModel" with
  | None => throw TypeError
  | Some gltf =>
      let this := mkFox gltf (GLTF_scene gltf) debugFolder in
      on_holder (modify (λ _, new_AnimationHolder));;
      configureModel this;;
      configureAnimation this;;
      ret this
  end.

(** [Fox.destroy()] *)
Definition destroy (this : Fox_object) : M World unit :=
  Scene_remove (modelGroup this).

(** Every mesh of the tree casts a shadow. *)
Fixpoint meshes_cast_shadow (o : Object3D) : bool :=
  match o with
  | Object3D_node f children =>
      implb (isMesh f) (castShadow f) && forallb meshes_cast_shadow children
  end.

(** The tree without the [castShadow] flags of its meshes. *)
Fixpoint without_mesh_shadows (o : Object3D) : Object3D :=
  match o with
  | Object3D_node f children =>
      Object3D_node (if isMesh f then mkFields (isMesh f) false (scale f) else f)
                    (map without_mesh_shadows children)
  end.

Definition scale_of (o : Object3D) : Q * Q * Q :=
  match o with Object3D_node f _ => scale f end.

(** The world in which [configureAnimation] runs: the folder is there, the
    holder is new, the model is scaled, in the scene, and casts shadows. *)
Definition placed (g : GLTF) (w : World) (h : AnimationHolder) (names : list string)
  : World :=
  mkWorld (alter (traverse castShadowOnMesh) (GLTF_scene g)
             (alter (scale_set 0.02 0.02 0.02) (GLTF_scene g) (objects w)))
          (remove_first (GLTF_scene g) (scene w) ++ [GLTF_scene g])
          (items w)
          ((λ fs, fs ++ [mkGUI "fox" names]) <$> debugUI w)
          h.

(** A sample world: a fox model of a group with a mesh and a bone holding a
    second mesh, three animations, a debug panel with one folder, and a scene
    with two other objects. *)
Definition fox_tree : Object3D :=
  Object3D_node (mkFields false false (1%Q, 1%Q, 1%Q))
    [ Object3D_node (mkFields true false (1%Q, 1%Q, 1%Q)) [];
      Object3D_node (mkFields false false (1%Q, 1%Q, 1%Q))
        [ Object3D_node (mkFields true false (1%Q, 1%Q, 1%Q)) [] ] ].

Definition sample_world : World :=
  mkWorld {[ 5%nat := fox_tree ]} [1; 2]%nat
          {[ "foxModel"%string := mkGLTF 5%nat [10; 11; 12]%nat ]}
          (Some [mkGUI "environment" ["intensity"%string]])
          new_AnimationHolder.

End FoxObject.

(** ** The consumers of the viewer component *)

Module Consumers.
Import ThreeViewer.

(** The method of the engine that each arrow function of [ngOnInit] calls
    with its argument. *)
Definition forwarded (k : Consumer) (payload : nat) : EngineCall :=
  match k with
  | forwardUpdate => EngineUpdate payload
  | forwardResize => EngineResize payload
  | forwardReactToPointer => EngineReactToPointer payload
  end.

End Consumers.

(** ** Running the monad *)

Module JsFacts.

Lemma bind_Normal {S A B} (m : M S A) (k : A → M S B) s a s' :
  m s = (Normal a, s') → Js.bind m k s = k a s'.
Proof. unfold Js.bind. by intros ->. Qed.

Lemma bind_Throw {S A B} (m : M S A) (k : A → M S B) s e s' :
  m s = (Throw e, s') → Js.bind m k s = (Throw e, s').
Proof. unfold Js.bind. by intros ->. Qed.

End JsFacts.

(** ** Properties of the animation holder *)

Module FoxFacts.
Import Fox JsFacts.

(** Runs a monadic program of the embedding on a given state. *)
Ltac run :=
  unfold play, configureAnimation, AnimationAction_reset, AnimationAction_play,
    AnimationAction_crossFadeFrom, js_set, record, update, receiver,
    Js.bind, Js.ret, Js.get, Js.modify, Js.throw;
  simpl.

Lemma js_get_own obj name v : obj !! name = Some v → js_get obj name = v.
Proof. unfold js_get. by intros ->. Qed.

(** Indexing with a name that is not an own key never yields an action. *)
Lemma js_get_absent obj name :
  obj !! name = None → ∀ r, js_get obj name ≠ VAction r.
Proof.
  unfold js_get. intros -> r. by case_bool_decide.
Qed.

Lemma receiver_absent obj name (h : AnimationHolder) :
  obj !! name = None → receiver (js_get obj name) h = (Throw TypeError, h).
Proof.
  intros Hnone. pose proof (js_get_absent obj name Hnone) as Hne.
  destruct (js_get obj name); try done. by destruct (Hne r).
Qed.

(** [play] on a name that is not a key: the first method call on the value
    looked up raises, and nothing has been written yet. *)
Lemma play_absent (h : AnimationHolder) name :
  actions h !! name = None → play name h = (Throw TypeError, h).
Proof.
  intros Hnone. unfold play, AnimationAction_reset, Js.bind, Js.get.
  by rewrite (receiver_absent _ _ h Hnone).
Qed.

(** [play] when both the name and "current" are bound to actions. *)
Lemma play_run (h : AnimationHolder) name n o :
  actions h !! name = Some (VAction n) →
  actions h !! "current" = Some (VAction o) →
  play name h =
    (Normal tt,
     mkHolder (<["current" := VAction n]> (actions h))
              (faded n o (mixer h))
              (current h)
              (calls h ++ [CallReset n; CallPlay n; CallCrossFadeFrom n (VAction o) 1 false])).
Proof.
  intros Hn Ho. unfold play, Js.bind at 1, Js.get.
  rewrite (js_get_own _ _ _ Hn), (js_get_own _ _ _ Ho).
  run. unfold faded. by rewrite <- !app_assoc.
Qed.

Lemma faded_length n o m : length (faded n o m) = length m.
Proof. unfold faded. by rewrite !length_alter. Qed.

Lemma faded_new n o m a :
  m !! n = Some a →
  faded n o m !! n = Some (mkAction (clip a) 0 false true true (Some (FadeIn 1)) false).
Proof.
  intros Ha. unfold faded.
  rewrite list_lookup_alter_eq.
  destruct (decide (o = n)) as [-> | Hne].
  - by rewrite !list_lookup_alter_eq, Ha.
  - by rewrite list_lookup_alter_ne, !list_lookup_alter_eq, Ha.
Qed.

Lemma faded_old n o m b :
  o ≠ n → m !! o = Some b → faded n o m !! o = Some (fadeOut 1 b).
Proof.
  intros Hne Hb. unfold faded.
  rewrite list_lookup_alter_ne by done.
  rewrite list_lookup_alter_eq.
  rewrite !list_lookup_alter_ne by done.
  by rewrite Hb.
Qed.

Lemma faded_other n o m r :
  r ≠ n → r ≠ o → faded n o m !! r = m !! r.
Proof.
  intros Hn Ho. unfold faded. by rewrite !list_lookup_alter_ne.
Qed.

Lemma clipAction_undefined (h : AnimationHolder) :
  clipAction None h = (Throw TypeError, h).
Proof. done. Qed.

Lemma clipAction_defined c (h : AnimationHolder) :
  ∃ r m,
    clipAction (Some c) h =
      (Normal (VAction r), mkHolder (actions h) m (current h) (calls h)) ∧
    (r < length m)%nat ∧ (length (mixer h) ≤ length m)%nat.
Proof.
  unfold clipAction, Js.bind, Js.get.
  destruct (list_find _ (mixer h)) as [[r a]|] eqn:Hfind.
  - exists r, (mixer h). apply list_find_Some in Hfind as (Hr & _ & _).
    apply lookup_lt_Some in Hr. destruct h; simpl in *. by repeat split.
  - exists (length (mixer h)), (mixer h ++ [new_AnimationAction c]).
    simpl. rewrite length_app. simpl. repeat split; lia.
Qed.

(** One line [actions[key] = mixer.clipAction(animations[i])]. *)
Lemma clip_line_defined key c (h : AnimationHolder) :
  ∃ r m,
    (a ← clipAction (Some c); js_set key a) h =
      (Normal tt, mkHolder (<[key := VAction r]> (actions h)) m (current h) (calls h)) ∧
    (r < length m)%nat ∧ (length (mixer h) ≤ length m)%nat.
Proof.
  destruct (clipAction_defined c h) as (r & m & Hrun & Hr & Hm).
  exists r, m. by rewrite (bind_Normal _ _ _ _ _ Hrun).
Qed.

Lemma clip_line_undefined key (h : AnimationHolder) :
  (a ← clipAction None; js_set key a) h = (Throw TypeError, h).
Proof. done. Qed.

(** The holder that [configureAnimation] leaves behind on a new holder. *)
Lemma configureAnimation_new animations h :
  configureAnimation animations new_AnimationHolder = (Normal tt, h) →
  ∃ r0 r1 r2 m,
    h = mkHolder (<["current" := VAction r0]>
                    (<["running" := VAction r2]>
                       (<["walking" := VAction r1]>
                          (<["idle" := VAction r0]> ∅))))
                 m None [CallPlay r0] ∧
    (r0 < length m)%nat ∧ (r1 < length m)%nat ∧ (r2 < length m)%nat.
Proof.
  unfold configureAnimation.
  destruct (animations !! 0%nat) as [c0|]; [|done].
  destruct (clip_line_defined "idle" c0 new_AnimationHolder)
    as (r0 & m0 & E0 & H0 & _).
  rewrite (bind_Normal _ _ _ _ _ E0). clear E0.
  destruct (animations !! 1%nat) as [c1|];
    [|by rewrite (bind_Throw _ _ _ _ _ (clip_line_undefined _ _))].
  match goal with |- Js.bind _ _ ?h0 = _ → _ =>
    destruct (clip_line_defined "walking" c1 h0) as (r1 & m1 & E1 & H1 & L1) end.
  rewrite (bind_Normal _ _ _ _ _ E1). clear E1.
  destruct (animations !! 2%nat) as [c2|];
    [|by rewrite (bind_Throw _ _ _ _ _ (clip_line_undefined _ _))].
  match goal with |- Js.bind _ _ ?h1 = _ → _ =>
    destruct (clip_line_defined "running" c2 h1) as (r2 & m2 & E2 & H2 & L2) end.
  rewrite (bind_Normal _ _ _ _ _ E2). clear E2.
  simpl in *. run. unfold js_get.
  assert ((<["running" := VAction r2]>
             (<["walking" := VAction r1]>
                (<["idle" := VAction r0]> (∅ : gmap string JsValue))))
            !! "idle" = Some (VAction r0)) as -> by by simplify_map_eq.
  rewrite lookup_insert_eq. simpl.
  intros [= <-]. exists r0, r1, r2, (alter play_state r0 m2).
  rewrite length_alter. repeat split; lia.
Qed.

Lemma play_preserves (h h' : AnimationHolder) name r :
  well_typed h → current_valid h → play name h = (r, h') →
  well_typed h' ∧ current_valid h'.
Proof.
  intros Hwt (o & b & k & Hcur & Hb & Hk & Hko) Hplay.
  destruct (actions h !! name) as [v|] eqn:Hname.
  - destruct (Hwt _ _ Hname) as (n & -> & Hn).
    rewrite (play_run h name n o Hname Hcur) in Hplay.
    injection Hplay as <- <-. split.
    + intros k' v'. simpl. rewrite faded_length.
      destruct (decide (k' = "current")) as [-> | Hne].
      * rewrite lookup_insert_eq. intros [= <-]. eauto.
      * rewrite lookup_insert_ne by done. apply Hwt.
    + destruct (lookup_lt_is_Some_2 (faded n o (mixer h)) n) as [a' Ha'].
      { by rewrite faded_length. }
      destruct (decide (name = "current")) as [-> | Hne].
      * assert (n = o) as -> by congruence.
        exists o, a', k. simpl. rewrite lookup_insert_eq.
        by rewrite lookup_insert_ne.
      * exists n, a', name. simpl. rewrite lookup_insert_eq.
        by rewrite lookup_insert_ne.
  - rewrite (play_absent h name Hname) in Hplay. injection Hplay as <- <-.
    split; [done|]. by exists o, b, k.
Qed.

Lemma built_invariant h : built h → well_typed h ∧ current_valid h.
Proof.
  induction 1 as [animations h Hnew | name h r h' _ [Hwt Hcv] Hplay
                 | h m _ [Hwt Hcv] Hlen].
  - apply configureAnimation_new in Hnew as (r0 & r1 & r2 & m & -> & H0 & H1 & H2).
    split.
    + intros k v. simpl. intros Hkv.
      repeat (apply lookup_insert_Some in Hkv as [[_ <-] | [_ Hkv]]; [eauto|]).
      done.
    + destruct (lookup_lt_is_Some_2 m r0 H0) as [a Ha].
      exists r0, a, "idle"%string. simpl.
      split_and!; [by simplify_map_eq | done | done | by simplify_map_eq].
  - by eapply play_preserves.
  - split.
    + intros k v Hkv. simpl in *. rewrite Hlen. by apply (Hwt k v).
    + destruct Hcv as (o & b & k & Hcur & Hb & Hk & Hko).
      destruct (lookup_lt_is_Some_2 m o) as [b' Hb'].
      { rewrite Hlen. by eapply lookup_lt_Some. }
      by exists o, b', k.
Qed.

End FoxFacts.

(** ** The lifecycle of the viewer component *)

Module ViewerFacts.
Import ThreeViewer JsFacts.

Ltac run :=
  unfold ngOnInit, ngOnDestroy, TimeService_tick, ScreenSizeService_resize,
    PointerService_pointer, consume, optional_Engine_call, new_Engine,
    TimeService_setConsumer, TimeService_launch, ScreenSizeService_setConsumer,
    PointerService_setConsumer, set_engine, effect,
    Js.bind, Js.ret, Js.get, Js.modify, Js.throw;
  simpl.

Lemma optional_Engine_call_run k c :
  optional_Engine_call k c = (Normal tt, called k c).
Proof. run. unfold called. by destruct (engine c). Qed.

Lemma ngOnDestroy_run c : ngOnDestroy c = (Normal tt, called EngineDestroy c).
Proof. apply optional_Engine_call_run. Qed.

Lemma called_no_engine k c : engine c = None → called k c = c.
Proof. unfold called. by intros ->. Qed.

Lemma releases_called c :
  releases (called EngineDestroy c) =
    match engine c with Some _ => S (releases c) | None => 0%nat end.
Proof.
  unfold releases, called. destruct (engine c) as [e|] eqn:He; simpl.
  - rewrite filter_app, length_app. simpl. lia.
  - by rewrite He.
Qed.

Lemma engine_called k c : is_Some (engine c) → is_Some (engine (called k c)).
Proof. unfold called. intros [e ->]. by eexists. Qed.

Lemma times_ngOnDestroy n c :
  ∃ c', times n ngOnDestroy c = (Normal tt, c') ∧
        (engine c = None → c' = c) ∧
        (is_Some (engine c) →
         is_Some (engine c') ∧ releases c' = (releases c + n)%nat).
Proof.
  revert c. induction n as [|n IH]; intros c.
  - exists c. simpl. split_and!; [done | done |]. intros Hc. split; [done | lia].
  - destruct (IH (called EngineDestroy c)) as (c' & Hrun & Hnone & Hsome).
    exists c'. simpl. rewrite (bind_Normal _ _ _ _ _ (ngOnDestroy_run c)).
    split_and!; [done | |].
    + intros Hc. rewrite (called_no_engine _ _ Hc) in Hnone. auto.
    + intros Hc. destruct (Hsome (engine_called _ _ Hc)) as [Hc' ->].
      split; [done|]. rewrite releases_called. destruct Hc as [e ->]. lia.
Qed.

(** [ngOnInit] when the canvas handle is there. *)
Lemma ngOnInit_run (c : ThreeViewerComponent) (r : ElementRef) :
  canvasRef c = Some r →
  ngOnInit c =
    (Normal tt,
     mkComponent (Some r) (Some (mkEngine (nativeElement r) []))
       (mkTimeService (Some forwardUpdate) (S (launches (timeService c))))
       (mkScreenSizeService (Some forwardResize))
       (mkPointerService (Some forwardReactToPointer))
       (trace c ++ [NewEngine (nativeElement r);
                    TimeSetConsumer forwardUpdate; TimeLaunch;
                    ScreenSizeSetConsumer forwardResize;
                    PointerSetConsumer forwardReactToPointer])).
Proof.
  destruct c as [cv e ts ss ps tr]. simpl. intros ->.
  cbv [ngOnInit new_Engine TimeService_setConsumer TimeService_launch
       ScreenSizeService_setConsumer PointerService_setConsumer set_engine effect
       Js.bind Js.ret Js.get Js.modify Js.throw
       canvasRef engine timeService screenSizeService pointerService trace
       timeConsumer launches].
  by rewrite <- !app_assoc.
Qed.

End ViewerFacts.

(** ** [AnimationHolder.play] and the "current" entry *)

Module FoxSpec.
Import Fox FoxFacts.

(** C1. On a holder whose [actions] bind both [name] and "current" to
    actions, [play name] returns normally after exactly three calls:
    [reset] and [play] on the action of [name], then [crossFadeFrom] on it
    with the action previously under "current", duration 1 and no warp.
    The new action is at time zero, enabled, not paused, activated and
    fading in over 1 second; the old one, when it is another action, keeps
    its time, its activation and its flags and only gets a 1-second fade
    out; no other action changes; and "current" is bound to the new
    action, every other key being as before. *)
Theorem play_cross_fades (h : AnimationHolder) (name : string) (n o : ref)
    (a b : AnimationAction) :
  actions h !! name = Some (VAction n) →
  actions h !! "current" = Some (VAction o) →
  mixer h !! n = Some a →
  mixer h !! o = Some b →
  ∃ h',
    play name h = (Normal tt, h') ∧
    calls h' = calls h ++ [CallReset n; CallPlay n; CallCrossFadeFrom n (VAction o) 1 false] ∧
    mixer h' !! n = Some (mkAction (clip a) 0 false true true (Some (FadeIn 1)) false) ∧
    (o ≠ n →
     mixer h' !! o =
       Some (mkAction (clip b) (time b) (paused b) (enabled b) (scheduled b)
                      (Some (FadeOut 1)) (warping b))) ∧
    (∀ r, r ≠ n → r ≠ o → mixer h' !! r = mixer h !! r) ∧
    actions h' !! "current" = Some (VAction n) ∧
    actions h' !! name = Some (VAction n) ∧
    (∀ k, k ≠ "current" → actions h' !! k = actions h !! k).
Proof.
  intros Hn Ho Ha Hb. eexists. split; [by apply play_run|]. simpl.
  split_and!.
  - done.
  - by apply faded_new.
  - intros Hne. by apply faded_old.
  - intros r. apply faded_other.
  - apply lookup_insert_eq.
  - destruct (decide (name = "current")) as [-> | Hne].
    + apply lookup_insert_eq.
    + by rewrite lookup_insert_ne.
  - intros k Hk. by rewrite lookup_insert_ne.
Qed.

Lemma play_cross_fades_witness :
  ∃ h', play "walking" sample = (Normal tt, h') ∧
        actions h' !! "current" = Some (VAction 1%nat) ∧
        mixer h' !! 0%nat = Some (mkAction 10%nat 0 false true true (Some (FadeOut 1)) false).
Proof.
  destruct (play_cross_fades sample "walking" 1%nat 0%nat
              (new_AnimationAction 11%nat)
              (mkAction 10%nat 0 false true true None false))
    as (h' & Hrun & _ & _ & Hold & _ & Hcur & _); [reflexivity ..|].
  exists h'. split_and!; [exact Hrun | exact Hcur | by apply Hold].
Defined.

(** C2, as the code has it. [play] on a name that is not a key of [actions]
    fails, and the failure reaches the caller; but the exception is the
    [TypeError] of the runtime, raised by the call of [reset] on the value
    looked up, not one that the method throws itself. *)
Theorem play_absent_TypeError (h : AnimationHolder) (name : string) :
  actions h !! name = None →
  ∃ e, fst (play name h) = Throw e ∧ e = TypeError ∧ explicit e = false.
Proof.
  intros Hnone. exists TypeError. by rewrite (play_absent h name Hnone).
Qed.

Lemma play_absent_TypeError_witness :
  ∃ e, fst (play "toString" sample) = Throw e ∧ e = TypeError ∧ explicit e = false.
Proof. apply (play_absent_TypeError sample "toString"). reflexivity. Defined.

(** C2, as stated, fails: "jumping" is no key of the sample holder, and
    [play "jumping"] does not end in an [Error] thrown by the method. *)
Lemma play_absent_not_explicit :
  actions sample !! "jumping" = None ∧
  ¬ ∃ message h', play "jumping" sample = (Throw (Error message), h').
Proof.
  split; [reflexivity|]. intros (message & h' & Hrun).
  rewrite play_absent in Hrun by reflexivity. discriminate.
Qed.

(** C8, as the code has it. When [actions] binds both [name] and "current"
    to actions, both lookups of [play name] yield an action and [play name]
    returns normally. *)
Theorem play_lookups_succeed (h : AnimationHolder) (name : string) (n o : ref) :
  actions h !! name = Some (VAction n) →
  actions h !! "current" = Some (VAction o) →
  js_get (actions h) name = VAction n ∧
  js_get (actions h) "current" = VAction o ∧
  fst (play name h) = Normal tt.
Proof.
  intros Hn Ho. split_and!; [by apply js_get_own ..|].
  by rewrite (play_run h name n o Hn Ho).
Qed.

Lemma play_lookups_succeed_witness :
  js_get (actions sample) "running" = VAction 2%nat ∧
  js_get (actions sample) "current" = VAction 0%nat ∧
  fst (play "running" sample) = Normal tt.
Proof. apply (play_lookups_succeed sample "running" 2%nat 0%nat); reflexivity. Defined.

(** C8, as stated, fails: on a holder where "idle" is a key and "current"
    is not yet one, the lookup of "current" yields [undefined] and
    [play "idle"] throws, after the new action has been reset and started. *)
Lemma play_without_current_fails :
  actions bare !! "idle" = Some (VAction 0%nat) ∧
  js_get (actions bare) "current" = VUndefined ∧
  fst (play "idle" bare) = Throw TypeError ∧
  calls (snd (play "idle" bare)) =
    [CallReset 0%nat; CallPlay 0%nat; CallCrossFadeFrom 0%nat VUndefined 1 false] ∧
  ¬ ((∃ o, js_get (actions bare) "current" = VAction o) ∧
     fst (play "idle" bare) = Normal tt).
Proof.
  split_and!; [reflexivity ..|]. intros [_ Hrun]. vm_compute in Hrun. discriminate.
Qed.

(** C9. [play] on a name that is not a key of [actions] throws and leaves
    the holder exactly as it was: [actions] with its "current" entry, the
    actions of the mixer, and no call made on any of them. *)
Theorem play_absent_atomic (h : AnimationHolder) (name : string) :
  actions h !! name = None →
  ∃ e, play name h = (Throw e, h).
Proof.
  intros Hnone. exists TypeError. by apply play_absent.
Qed.

Lemma play_absent_atomic_witness :
  ∃ e, play "jumping" sample = (Throw e, sample).
Proof. apply (play_absent_atomic sample "jumping"). reflexivity. Defined.

(** C10. When "current" is bound to an action, [play "current"] returns
    normally, cross-fades that action from itself, and leaves [actions], so
    also its "current" entry, as it was. *)
Theorem play_current_keeps_current (h : AnimationHolder) (o : ref) :
  actions h !! "current" = Some (VAction o) →
  ∃ h',
    play "current" h = (Normal tt, h') ∧
    actions h' !! "current" = Some (VAction o) ∧
    actions h' = actions h ∧
    calls h' = calls h ++ [CallReset o; CallPlay o; CallCrossFadeFrom o (VAction o) 1 false].
Proof.
  intros Ho. eexists. split; [by apply play_run|]. simpl.
  split_and!; [apply lookup_insert_eq | by apply insert_id | done].
Qed.

Lemma play_current_keeps_current_witness :
  ∃ h',
    play "current" sample = (Normal tt, h') ∧
    actions h' !! "current" = Some (VAction 0%nat) ∧
    actions h' = actions sample ∧
    calls h' = calls sample ++
               [CallReset 0%nat; CallPlay 0%nat; CallCrossFadeFrom 0%nat (VAction 0%nat) 1 false].
Proof. apply (play_current_keeps_current sample 0%nat). reflexivity. Defined.

(** C5. In every holder built by the constructor of [Fox] and then driven by
    any sequence of [play] calls, with names that are keys or not, "current"
    is bound to an action that exists in the mixer and that one of the
    animation names is bound to as well. *)
Theorem built_current_valid (h : AnimationHolder) :
  built h → current_valid h.
Proof. intros Hb. by apply built_invariant. Qed.

Lemma built_current_valid_witness :
  current_valid (snd (play "running" (snd (play "jumping" sample)))).
Proof.
  apply built_current_valid.
  apply (built_play "running" (snd (play "jumping" sample))
           (fst (play "running" (snd (play "jumping" sample)))));
    [|apply surjective_pairing].
  apply (built_play "jumping" sample (fst (play "jumping" sample)));
    [|apply surjective_pairing].
  apply (built_new [10; 11; 12]%nat). reflexivity.
Defined.

End FoxSpec.

Module ViewerSpec.
Import ThreeViewer JsFacts ViewerFacts.

(** C4. Without a canvas handle, [ngOnInit] throws the [Error] of its
    [throw] statement and leaves the component as it was: no engine is
    built, the [engine] field is not written, no consumer is set and the
    time source is not launched. *)
Theorem ngOnInit_without_canvas (c : ThreeViewerComponent) :
  canvasRef c = None →
  ngOnInit c =
    (Throw (Error "Canvas should be defined to bootstrap the WebGL Engine"), c) ∧
  explicit (Error "Canvas should be defined to bootstrap the WebGL Engine") = true.
Proof.
  intros Hc. unfold ngOnInit, Js.bind, Js.get. by rewrite Hc.
Qed.

Lemma ngOnInit_without_canvas_witness :
  ngOnInit (new_component None) =
    (Throw (Error "Canvas should be defined to bootstrap the WebGL Engine"),
     new_component None) ∧
  explicit (Error "Canvas should be defined to bootstrap the WebGL Engine") = true.
Proof. apply (ngOnInit_without_canvas (new_component None)). reflexivity. Defined.

(** C7. With a canvas handle, [ngOnInit] returns normally after exactly
    these effects, in this order: an engine is built on the canvas element,
    the time service gets the consumer that forwards to [update] and is
    launched once, the screen-size service gets the one that forwards to
    [resize], the pointer service the one that forwards to
    [reactToPointer].  The [engine] field then holds the new engine, the
    three services hold their consumer, and each consumer, once called,
    hands its payload to that engine. *)
Theorem ngOnInit_with_canvas (c : ThreeViewerComponent) (r : ElementRef) :
  canvasRef c = Some r →
  ∃ c' e,
    ngOnInit c = (Normal tt, c') ∧
    engine c' = Some e ∧
    canvas e = nativeElement r ∧
    trace c' = trace c ++
               [NewEngine (nativeElement r);
                TimeSetConsumer forwardUpdate; TimeLaunch;
                ScreenSizeSetConsumer forwardResize;
                PointerSetConsumer forwardReactToPointer] ∧
    registered c' = [forwardUpdate; forwardResize; forwardReactToPointer] ∧
    launches (timeService c') = S (launches (timeService c)) ∧
    (∀ p, engine (snd (TimeService_tick p c')) =
            Some (mkEngine (canvas e) (received e ++ [EngineUpdate p]))) ∧
    (∀ p, engine (snd (ScreenSizeService_resize p c')) =
            Some (mkEngine (canvas e) (received e ++ [EngineResize p]))) ∧
    (∀ p, engine (snd (PointerService_pointer p c')) =
            Some (mkEngine (canvas e) (received e ++ [EngineReactToPointer p]))).
Proof.
  intros Hc. eexists _, _. split; [by apply ngOnInit_run|].
  split_and!; reflexivity.
Qed.

Lemma ngOnInit_with_canvas_witness :
  ∃ c',
    ngOnInit (new_component (Some (mkElementRef 7%nat))) = (Normal tt, c') ∧
    engine c' = Some (mkEngine 7%nat []) ∧
    registered c' = [forwardUpdate; forwardResize; forwardReactToPointer] ∧
    launches (timeService c') = 1%nat ∧
    engine (snd (TimeService_tick 16%nat c')) = Some (mkEngine 7%nat [EngineUpdate 16%nat]).
Proof.
  destruct (ngOnInit_with_canvas (new_component (Some (mkElementRef 7%nat)))
              (mkElementRef 7%nat))
    as (c' & e & Hrun & He & _ & _ & Hreg & Hl & Htick & _); [reflexivity|].
  exists c'. injection Hrun as <-. injection He as <-.
  split_and!; [reflexivity | reflexivity | exact Hreg | exact Hl | apply Htick].
Defined.

(** C3, as the code has it. Any number of [ngOnDestroy] calls in a row
    returns normally.  On a component without engine they leave the
    component as it was.  On a component with an engine the field stays
    set and every call reaches [destroy] of that engine: after [n] calls
    the engine has been released [n] times more. *)
Theorem ngOnDestroy_releases_per_call (n : nat) (c : ThreeViewerComponent) :
  ∃ c',
    times n ngOnDestroy c = (Normal tt, c') ∧
    (engine c = None → c' = c) ∧
    (is_Some (engine c) →
     is_Some (engine c') ∧ releases c' = (releases c + n)%nat).
Proof. apply times_ngOnDestroy. Qed.

Lemma ngOnDestroy_releases_per_call_witness :
  (∃ c', times 2 ngOnDestroy (new_component None) = (Normal tt, c') ∧
         c' = new_component None) ∧
  (∃ c', times 3 ngOnDestroy running = (Normal tt, c') ∧ releases c' = 3%nat).
Proof.
  split.
  - destruct (ngOnDestroy_releases_per_call 2 (new_component None))
      as (c' & Hrun & Hnone & _).
    exists c'. split; [exact Hrun | apply Hnone; reflexivity].
  - destruct (ngOnDestroy_releases_per_call 3 running) as (c' & Hrun & _ & Hsome).
    exists c'. split; [exact Hrun|].
    destruct Hsome as [_ ->]; [eexists; reflexivity | reflexivity].
Defined.

(** C3, as stated, fails: on a running component the second [ngOnDestroy]
    releases the engine a second time. *)
Lemma ngOnDestroy_twice_releases_twice :
  releases running = 0%nat ∧
  releases (snd (ngOnDestroy running)) = 1%nat ∧
  releases (snd (times 2 ngOnDestroy running)) = 2%nat ∧
  ¬ (snd (times 2 ngOnDestroy running) = snd (ngOnDestroy running)).
Proof.
  split_and!; [reflexivity ..|]. intros Heq.
  apply (f_equal releases) in Heq. vm_compute in Heq. discriminate.
Qed.

(** C6, as the code has it. [ngOnDestroy] returns normally and only calls
    [destroy] on the engine, when there is one.  The three services are left
    as they were: the consumers they hold stay registered and the time
    source stays launched. *)
Theorem ngOnDestroy_keeps_consumers (c : ThreeViewerComponent) :
  fst (ngOnDestroy c) = Normal tt ∧
  timeService (snd (ngOnDestroy c)) = timeService c ∧
  screenSizeService (snd (ngOnDestroy c)) = screenSizeService c ∧
  pointerService (snd (ngOnDestroy c)) = pointerService c ∧
  registered (snd (ngOnDestroy c)) = registered c ∧
  trace (snd (ngOnDestroy c)) =
    trace c ++ match engine c with
               | Some _ => [CallEngine EngineDestroy]
               | None => []
               end.
Proof.
  rewrite ngOnDestroy_run. unfold called, registered.
  destruct (engine c); simpl; split_and!; try done. by rewrite app_nil_r.
Qed.

(** C6, as stated, fails: after [ngOnDestroy] on a running component the
    three consumers set by [ngOnInit] are still registered. *)
Lemma ngOnDestroy_leaves_consumers_registered :
  registered (snd (ngOnDestroy running)) =
    [forwardUpdate; forwardResize; forwardReactToPointer] ∧
  releases (snd (ngOnDestroy running)) = 1%nat ∧
  received <$> engine (snd (TimeService_tick 16%nat (snd (ngOnDestroy running)))) =
    Some [EngineDestroy; EngineUpdate 16%nat] ∧
  ¬ (registered (snd (ngOnDestroy running)) = []).
Proof. split_and!; [reflexivity | reflexivity | reflexivity | discriminate]. Qed.

End ViewerSpec.

(** ** More on the animation holder *)

Module FoxExtra.
Import Fox Holder JsFacts FoxFacts.

(** A change of an action that keeps its clip keeps the clips of the mixer. *)
Lemma clip_alter (f : AnimationAction → AnimationAction) (i r : nat)
    (m : list AnimationAction) :
  (∀ a, clip (f a) = clip a) → clip <$> alter f i m !! r = clip <$> m !! r.
Proof.
  intros Hf. destruct (decide (i = r)) as [-> | Hne].
  - rewrite list_lookup_alter_eq. destruct (m !! r); simpl; [|done].
    by rewrite Hf.
  - by rewrite list_lookup_alter_ne.
Qed.

(** Splits [play name h] along the two values that it looks up. *)
Ltac play_cases h name :=
  unfold play; unfold Js.bind at 1; unfold Js.get; cbv beta iota zeta;
  destruct (js_get (actions h) name), (js_get (actions h) "current"); run.

(** X1. Whatever the name and however the call ends, [play] writes no entry
    of [actions] but "current": every other key is bound as before. *)
Theorem play_writes_only_current (h : AnimationHolder) (name k : string) :
  k ≠ "current" →
  actions (snd (play name h)) !! k = actions h !! k.
Proof.
  intros Hk. play_cases h name; try done. by rewrite lookup_insert_ne.
Qed.

Lemma play_writes_only_current_witness :
  actions (snd (play "walking" sample)) !! "idle" = actions sample !! "idle".
Proof. apply (play_writes_only_current sample "walking" "idle"). discriminate. Defined.

(** X2. Whatever the name and however the call ends, [play] neither adds an
    action to the mixer nor removes one, and every action keeps its clip. *)
Theorem play_keeps_clips (h : AnimationHolder) (name : string) (r : ref) :
  clip <$> mixer (snd (play name h)) !! r = clip <$> mixer h !! r.
Proof.
  play_cases h name; try done; by rewrite !clip_alter.
Qed.

(** X3. When [name] is bound to an action and "current" is no key, [play name]
    throws a [TypeError] from inside [crossFadeFrom], called with
    [undefined]; by then the new action has been reset and started, and
    "current" is still not set. *)
Theorem play_without_current (h : AnimationHolder) (name : string) (n : ref)
    (a : AnimationAction) :
  actions h !! name = Some (VAction n) →
  actions h !! "current" = None →
  mixer h !! n = Some a →
  ∃ h',
    play name h = (Throw TypeError, h') ∧
    actions h' = actions h ∧
    mixer h' !! n = Some (mkAction (clip a) 0 false true true None false) ∧
    (∀ r, r ≠ n → mixer h' !! r = mixer h !! r) ∧
    calls h' = calls h ++
               [CallReset n; CallPlay n; CallCrossFadeFrom n VUndefined 1 false].
Proof.
  intros Hn Hcur Ha. eexists. split.
  - unfold play. unfold Js.bind at 1. unfold Js.get. cbv beta iota zeta.
    rewrite (js_get_own _ _ _ Hn). unfold js_get at 1. rewrite Hcur. simpl.
    run. reflexivity.
  - simpl. split_and!.
    + done.
    + by rewrite !list_lookup_alter_eq, Ha.
    + intros r Hr. by rewrite !list_lookup_alter_ne.
    + by rewrite <- !app_assoc.
Qed.

Lemma play_without_current_witness :
  ∃ h', play "idle" bare = (Throw TypeError, h') ∧
        actions h' !! "current" = None ∧
        mixer h' !! 0%nat = Some (mkAction 10%nat 0 false true true None false).
Proof.
  destruct (play_without_current bare "idle" 0%nat (new_AnimationAction 10%nat))
    as (h' & Hrun & Hact & Hmix & _); [reflexivity ..|].
  exists h'. split_and!; [exact Hrun | by rewrite Hact | exact Hmix].
Defined.

(** X4. Two [play] calls in a row, on names bound to actions and with
    "current" bound: both return normally, "current" ends on the action of
    the second name, and the second cross-fade starts from the action of the
    first name.  The second name must not be "current" itself, which by then
    is bound to the action of the first. *)
Theorem play_then_play (h : AnimationHolder) (first second : string) (n1 n2 o : ref) :
  actions h !! first = Some (VAction n1) →
  actions h !! second = Some (VAction n2) →
  actions h !! "current" = Some (VAction o) →
  second ≠ "current" →
  ∃ h',
    (play first;; play second) h = (Normal tt, h') ∧
    actions h' !! "current" = Some (VAction n2) ∧
    calls h' = calls h ++
               [CallReset n1; CallPlay n1; CallCrossFadeFrom n1 (VAction o) 1 false;
                CallReset n2; CallPlay n2; CallCrossFadeFrom n2 (VAction n1) 1 false].
Proof.
  intros H1 H2 Ho Hne. eexists. split.
  - erewrite bind_Normal; [|by apply (play_run h first n1 o)].
    apply play_run; simpl.
    + by rewrite lookup_insert_ne.
    + apply lookup_insert_eq.
  - simpl. split; [apply lookup_insert_eq|]. by rewrite <- app_assoc.
Qed.

Lemma play_then_play_witness :
  ∃ h', (play "walking";; play "running") sample = (Normal tt, h') ∧
        actions h' !! "current" = Some (VAction 2%nat).
Proof.
  destruct (play_then_play sample "walking" "running" 1%nat 2%nat 0%nat)
    as (h' & Hrun & Hcur & _); [reflexivity | reflexivity | reflexivity | discriminate |].
  exists h'. split; [exact Hrun | exact Hcur].
Defined.

Lemma clipAction_clip c (h : AnimationHolder) :
  ∃ r m,
    clipAction (Some c) h =
      (Normal (VAction r), mkHolder (actions h) m (current h) (calls h)) ∧
    clip <$> m !! r = Some c ∧
    extends (mixer h) m ∧
    (idle_mixer (mixer h) → idle_mixer m).
Proof.
  unfold clipAction, Js.bind, Js.get.
  destruct (list_find _ (mixer h)) as [[r a]|] eqn:Hfind.
  - exists r, (mixer h). apply list_find_Some in Hfind as (Hr & Hc & _).
    rewrite Hr. simpl. subst c. destruct h; simpl in *.
    split_and!; [done | done | by intros ?? | done].
  - exists (length (mixer h)), (mixer h ++ [new_AnimationAction c]). simpl.
    split_and!.
    + done.
    + by rewrite list_lookup_middle.
    + intros i a Hi. by apply lookup_app_l_Some.
    + intros Hidle. apply Forall_app. split; [done|]. by repeat constructor.
Qed.

Lemma clip_line_clip key c (h : AnimationHolder) :
  ∃ r m,
    (a ← clipAction (Some c); js_set key a) h =
      (Normal tt, mkHolder (<[key := VAction r]> (actions h)) m (current h) (calls h)) ∧
    clip <$> m !! r = Some c ∧
    extends (mixer h) m ∧
    (idle_mixer (mixer h) → idle_mixer m).
Proof.
  destruct (clipAction_clip c h) as (r & m & Hrun & Hrest).
  exists r, m. by rewrite (bind_Normal _ _ _ _ _ Hrun).
Qed.

Lemma extends_clip m m' r c :
  extends m m' → clip <$> m !! r = Some c → clip <$> m' !! r = Some c.
Proof.
  intros Hext Hc. apply fmap_Some in Hc as (a & Ha & ->).
  by rewrite (Hext _ _ Ha).
Qed.

Lemma configureAnimation_run (animations : list AnimationClip)
    (c0 c1 c2 : AnimationClip) :
  animations !! 0%nat = Some c0 →
  animations !! 1%nat = Some c1 →
  animations !! 2%nat = Some c2 →
  ∃ h r0 r1 r2,
    configureAnimation animations new_AnimationHolder = (Normal tt, h) ∧
    actions h = <["current" := VAction r0]>
                  (<["running" := VAction r2]>
                     (<["walking" := VAction r1]>
                        (<["idle" := VAction r0]> ∅))) ∧
    clip <$> mixer h !! r0 = Some c0 ∧
    clip <$> mixer h !! r1 = Some c1 ∧
    clip <$> mixer h !! r2 = Some c2 ∧
    scheduled <$> mixer h !! r0 = Some true ∧
    (∀ r a, r ≠ r0 → mixer h !! r = Some a → scheduled a = false) ∧
    calls h = [CallPlay r0].
Proof.
  unfold configureAnimation. intros -> -> ->.
  destruct (clip_line_clip "idle" c0 new_AnimationHolder)
    as (r0 & m0 & E0 & C0 & _ & I0).
  rewrite (bind_Normal _ _ _ _ _ E0). clear E0.
  match goal with |- context [Js.bind _ _ ?h0] =>
    destruct (clip_line_clip "walking" c1 h0) as (r1 & m1 & E1 & C1 & X1 & I1) end.
  rewrite (bind_Normal _ _ _ _ _ E1). clear E1.
  match goal with |- context [Js.bind _ _ ?h1] =>
    destruct (clip_line_clip "running" c2 h1) as (r2 & m2 & E2 & C2 & X2 & I2) end.
  rewrite (bind_Normal _ _ _ _ _ E2). clear E2.
  simpl in *. run. unfold js_get.
  assert ((<["running" := VAction r2]>
             (<["walking" := VAction r1]>
                (<["idle" := VAction r0]> (∅ : gmap string JsValue))))
            !! "idle" = Some (VAction r0)) as -> by by simplify_map_eq.
  rewrite lookup_insert_eq. simpl.
  assert (clip <$> m2 !! r0 = Some c0) as C0' by eauto using extends_clip.
  assert (clip <$> m2 !! r1 = Some c1) as C1' by eauto using extends_clip.
  assert (idle_mixer m2) as Hidle by (apply I2, I1, I0; constructor).
  eexists _, r0, r1, r2. split; [reflexivity|]. simpl. split_and!.
  - done.
  - by rewrite clip_alter.
  - by rewrite clip_alter.
  - by rewrite clip_alter.
  - rewrite list_lookup_alter_eq. apply fmap_Some in C0' as (a & -> & _). done.
  - intros r a Hr. rewrite list_lookup_alter_ne by done. intros Ha.
    unfold idle_mixer in Hidle. rewrite Forall_lookup in Hidle. by eapply Hidle.
  - done.
Qed.

(** X5. On a GLTF file with three animations or more, [configureAnimation]
    returns normally on a new holder.  It leaves exactly the keys "idle",
    "walking", "running" and "current", bound to the actions of the first
    three clips, with "current" on the action of "idle"; this action is the
    only one started, by the one call made. *)
Theorem configureAnimation_three_clips (animations : list AnimationClip)
    (c0 c1 c2 : AnimationClip) :
  animations !! 0%nat = Some c0 →
  animations !! 1%nat = Some c1 →
  animations !! 2%nat = Some c2 →
  ∃ h r0 r1 r2,
    configureAnimation animations new_AnimationHolder = (Normal tt, h) ∧
    actions h = <["current" := VAction r0]>
                  (<["running" := VAction r2]>
                     (<["walking" := VAction r1]>
                        (<["idle" := VAction r0]> ∅))) ∧
    clip <$> mixer h !! r0 = Some c0 ∧
    clip <$> mixer h !! r1 = Some c1 ∧
    clip <$> mixer h !! r2 = Some c2 ∧
    scheduled <$> mixer h !! r0 = Some true ∧
    (∀ r a, r ≠ r0 → mixer h !! r = Some a → scheduled a = false) ∧
    calls h = [CallPlay r0].
Proof. apply configureAnimation_run. Qed.

Lemma configureAnimation_three_clips_witness :
  ∃ h r0, configureAnimation [10; 10; 12; 13]%nat new_AnimationHolder = (Normal tt, h) ∧
          actions h !! "current" = Some (VAction r0) ∧
          actions h !! "walking" = Some (VAction r0) ∧
          calls h = [CallPlay r0].
Proof.
  destruct (configureAnimation_three_clips [10; 10; 12; 13]%nat 10%nat 10%nat 12%nat)
    as (h & r0 & r1 & r2 & Hrun & Hact & _ & _ & _ & _ & _ & Hcalls);
    [reflexivity ..|].
  exists h, r0. injection Hrun as <-. injection Hcalls as <-.
  split_and!; reflexivity.
Defined.

Lemma configureAnimation_throw (animations : list AnimationClip) :
  (length animations < 3)%nat →
  ∃ h,
    configureAnimation animations new_AnimationHolder = (Throw TypeError, h) ∧
    actions h !! "current" = None ∧
    actions h !! "running" = None ∧
    calls h = [].
Proof.
  intros Hlen. unfold configureAnimation.
  assert (animations !! 2%nat = None) as H2 by (apply lookup_ge_None_2; lia).
  destruct (animations !! 0%nat) as [c0|].
  2:{ eexists. split; [reflexivity|]. done. }
  destruct (clip_line_defined "idle" c0 new_AnimationHolder)
    as (r0 & m0 & E0 & _).
  rewrite (bind_Normal _ _ _ _ _ E0). clear E0.
  destruct (animations !! 1%nat) as [c1|].
  2:{ eexists. split; [by rewrite (bind_Throw _ _ _ _ _ (clip_line_undefined _ _))|].
      simpl. split_and!; by simplify_map_eq. }
  match goal with |- context [Js.bind _ _ ?h0] =>
    destruct (clip_line_defined "walking" c1 h0) as (r1 & m1 & E1 & _) end.
  rewrite (bind_Normal _ _ _ _ _ E1). clear E1.
  rewrite H2.
  eexists. split; [by rewrite (bind_Throw _ _ _ _ _ (clip_line_undefined _ _))|].
  simpl. split_and!; by simplify_map_eq.
Qed.

(** X6. On a GLTF file with fewer than three animations, [configureAnimation]
    throws a [TypeError] out of [clipAction], called with [undefined]; the
    holder is left without "current" entry and no action has been started. *)
Theorem configureAnimation_too_few_clips (animations : list AnimationClip) :
  (length animations < 3)%nat →
  ∃ h,
    configureAnimation animations new_AnimationHolder = (Throw TypeError, h) ∧
    actions h !! "current" = None ∧
    actions h !! "running" = None ∧
    calls h = [].
Proof. apply configureAnimation_throw. Qed.

Lemma configureAnimation_too_few_clips_witness :
  ∃ h, configureAnimation [10; 11]%nat new_AnimationHolder = (Throw TypeError, h) ∧
       actions h !! "current" = None ∧
       actions h !! "running" = None ∧
       calls h = [].
Proof. apply (configureAnimation_too_few_clips [10; 11]%nat). simpl. lia. Defined.

Lemma four_keys_lookup (m : gmap string JsValue) (r0 r1 r2 rc : ref) name v :
  m = <["current" := VAction rc]>
        (<["running" := VAction r2]>
           (<["walking" := VAction r1]>
              (<["idle" := VAction r0]> ∅))) →
  rc ∈ [r0; r1; r2] →
  m !! name = Some v →
  ∃ n, v = VAction n ∧ n ∈ [r0; r1; r2].
Proof.
  intros -> Hrc Hv.
  apply lookup_insert_Some in Hv as [[_ <-] | [_ Hv]]; [by exists rc|].
  apply lookup_insert_Some in Hv as [[_ <-] | [_ Hv]]; [exists r2; rewrite !elem_of_cons; auto|].
  apply lookup_insert_Some in Hv as [[_ <-] | [_ Hv]]; [exists r1; rewrite !elem_of_cons; auto|].
  apply lookup_insert_Some in Hv as [[_ <-] | [_ Hv]]; [exists r0; rewrite !elem_of_cons; auto|].
  done.
Qed.

Lemma built_keys (h : AnimationHolder) : built h → four_keys h.
Proof.
  induction 1 as [animations h Hnew | name h r h' _ IH Hplay | h m _ IH Hlen].
  - apply configureAnimation_new in Hnew as (r0 & r1 & r2 & m & -> & H0 & H1 & H2).
    exists r0, r1, r2, r0. simpl. split_and!; [done | by apply elem_of_cons; left | done ..].
  - destruct IH as (r0 & r1 & r2 & rc & Hact & Hrc & H0 & H1 & H2).
    destruct (actions h !! name) as [v|] eqn:Hname.
    + destruct (four_keys_lookup _ _ _ _ _ _ _ Hact Hrc Hname) as (n & -> & Hn).
      assert (actions h !! "current" = Some (VAction rc)) as Hcur
        by (rewrite Hact; apply lookup_insert_eq).
      rewrite (play_run h name n rc Hname Hcur) in Hplay.
      injection Hplay as <- <-. exists r0, r1, r2, n. simpl.
      rewrite faded_length, Hact, insert_insert_eq. done.
    + rewrite (play_absent h name Hname) in Hplay. injection Hplay as <- <-.
      by exists r0, r1, r2, rc.
  - destruct IH as (r0 & r1 & r2 & rc & Hact & Hrc & H0 & H1 & H2).
    exists r0, r1, r2, rc. simpl. by rewrite Hlen.
Qed.

Lemma sample_built : built sample.
Proof. apply (built_new [10; 11; 12]%nat). reflexivity. Qed.

(** X7. In every holder built by the constructor of [Fox] and then driven by
    [play] calls and mixer updates, [actions] has exactly the keys "idle",
    "walking", "running" and "current"; each is bound to an action that the
    mixer holds, and "current" to the action of one of the three names. *)
Theorem built_four_keys (h : AnimationHolder) : built h → four_keys h.
Proof. apply built_keys. Qed.

Lemma built_four_keys_witness :
  four_keys (snd (play "walking" (snd (play "hasOwnProperty" sample)))).
Proof.
  apply built_four_keys.
  apply (built_play "walking" (snd (play "hasOwnProperty" sample))
           (fst (play "walking" (snd (play "hasOwnProperty" sample)))));
    [|apply surjective_pairing].
  apply (built_play "hasOwnProperty" sample (fst (play "hasOwnProperty" sample)));
    [|apply surjective_pairing].
  apply sample_built.
Defined.



End FoxExtra.

(** ** The class [Fox] *)

Module FoxObjectFacts.
Import Fox FoxObject JsFacts.

(** Induction on an object and all its descendants. *)
Lemma Object3D_tree_ind (P : Object3D → Prop) :
  (∀ f children, Forall P children → P (Object3D_node f children)) →
  ∀ o, P o.
Proof.
  intros Hnode. fix IH 1. intros [f children]. apply Hnode.
  induction children as [|c cs IHcs]; constructor; [apply IH | apply IHcs].
Qed.

Lemma traverse_meshes_cast_shadow (o : Object3D) :
  meshes_cast_shadow (traverse castShadowOnMesh o) = true.
Proof.
  induction o as [f children IH] using Object3D_tree_ind. simpl.
  apply andb_true_intro. split.
  - unfold castShadowOnMesh. destruct (isMesh f) eqn:Hf; simpl; [done|].
    by rewrite Hf.
  - induction IH as [|c cs Hc _ IHcs]; simpl; [done|]. by rewrite Hc, IHcs.
Qed.

Lemma traverse_without_mesh_shadows (o : Object3D) :
  without_mesh_shadows (traverse castShadowOnMesh o) = without_mesh_shadows o.
Proof.
  induction o as [f children IH] using Object3D_tree_ind. simpl. f_equal.
  - unfold castShadowOnMesh. destruct f as [[] c s]; simpl; done.
  - induction IH as [|c cs Hc _ IHcs]; simpl; [done|]. by rewrite Hc, IHcs.
Qed.

Lemma remove_first_absent (o : ObjectRef) (children : list ObjectRef) :
  o ∉ children → remove_first o children = children.
Proof.
  induction children as [|c cs IH]; simpl; [done|].
  rewrite not_elem_of_cons. intros [Hne Hcs].
  case_decide; [congruence|]. by rewrite IH.
Qed.

Lemma remove_first_push (o : ObjectRef) (children : list ObjectRef) :
  o ∉ children → remove_first o (children ++ [o]) = children.
Proof.
  induction children as [|c cs IH]; simpl.
  - intros _. by case_decide.
  - rewrite not_elem_of_cons. intros [Hne Hcs].
    case_decide; [congruence|]. by rewrite IH.
Qed.

Lemma on_holder_run {A} (m : M AnimationHolder A) (w : World) r h :
  m (animationHolder w) = (r, h) →
  on_holder m w = (r, mkWorld (objects w) (scene w) (items w) (debugUI w) h).
Proof. unfold on_holder. by intros ->. Qed.

Lemma new_Fox_run (w : World) (g : GLTF) (h : AnimationHolder) :
  items w !! "foxModel" = Some g →
  Fox.configureAnimation (GLTF_animations g) new_AnimationHolder = (Normal tt, h) →
  new_Fox w =
    (Normal (mkFox g (GLTF_scene g) (length <$> debugUI w)),
     placed g w h ["playIdle"; "playWalking"; "playRunning"]%string).
Proof.
  intros Hitems Hconf. destruct w as [os sc its ui ah]. simpl in *.
  unfold new_Fox, placed, Js.bind at 1, Js.get. simpl. rewrite Hitems.
  destruct ui as [fs|]; simpl.
  - cbv [Js.bind GUI_addFolder set_debugUI Js.modify Js.ret configureModel
         set_objects Scene_add set_scene on_holder configureAnimation GUI_add
         objects scene items debugUI animationHolder modelGroup gltf debugFolder
         fmap option_fmap option_map].
    rewrite Hconf. simpl. repeat f_equal.
    rewrite <- (Nat.add_0_r (length fs)), !alter_app_r. done.
  - cbv [Js.bind Js.modify Js.ret configureModel
         set_objects Scene_add set_scene on_holder configureAnimation
         objects scene items debugUI animationHolder modelGroup gltf debugFolder].
    by rewrite Hconf.
Qed.

Lemma new_Fox_throw (w : World) (g : GLTF) (h : AnimationHolder) e :
  items w !! "foxModel" = Some g →
  Fox.configureAnimation (GLTF_animations g) new_AnimationHolder = (Throw e, h) →
  new_Fox w = (Throw e, placed g w h []).
Proof.
  intros Hitems Hconf. destruct w as [os sc its ui ah]. simpl in *.
  unfold new_Fox, placed, Js.bind at 1, Js.get. simpl. rewrite Hitems.
  destruct ui as [fs|]; simpl.
  - cbv [Js.bind GUI_addFolder set_debugUI Js.modify Js.ret configureModel
         set_objects Scene_add set_scene on_holder configureAnimation GUI_add
         objects scene items debugUI animationHolder modelGroup gltf debugFolder
         fmap option_fmap option_map].
    by rewrite Hconf.
  - cbv [Js.bind Js.modify Js.ret configureModel
         set_objects Scene_add set_scene on_holder configureAnimation
         objects scene items debugUI animationHolder modelGroup gltf debugFolder].
    by rewrite Hconf.
Qed.

(** X9. The traversal of [configureModel] makes every mesh of the model, at
    any depth, cast a shadow, and changes nothing else: the tree, the objects
    that are no meshes and the other fields of the meshes are as before. *)
Theorem traverse_castShadowOnMesh (o : Object3D) :
  meshes_cast_shadow (traverse castShadowOnMesh o) = true ∧
  without_mesh_shadows (traverse castShadowOnMesh o) = without_mesh_shadows o.
Proof.
  split; [apply traverse_meshes_cast_shadow | apply traverse_without_mesh_shadows].
Qed.

(** X10. When nothing is loaded under 'foxModel', the constructor of [Fox]
    throws a [TypeError] on reading [this.gltf.scene].  The scene, the
    objects and the holder are untouched, but the folder "fox" of the debug
    panel, when there is a panel, has already been added, without any
    controller. *)
Theorem new_Fox_without_model (w : World) :
  items w !! "foxModel" = None →
  ∃ w',
    new_Fox w = (Throw TypeError, w') ∧
    scene w' = scene w ∧
    objects w' = objects w ∧
    animationHolder w' = animationHolder w ∧
    debugUI w' = (λ fs, fs ++ [mkGUI "fox" []]) <$> debugUI w.
Proof.
  intros Hitems. destruct w as [os sc its ui ah]. simpl in *.
  unfold new_Fox, Js.bind at 1, Js.get. simpl. rewrite Hitems.
  destruct ui as [fs|]; eexists; (split; [reflexivity|done]).
Qed.

Lemma new_Fox_without_model_witness :
  ∃ w',
    new_Fox (mkWorld ∅ [1; 2]%nat ∅ (Some []) new_AnimationHolder) =
      (Throw TypeError, w') ∧
    scene w' = [1; 2]%nat ∧
    debugUI w' = Some [mkGUI "fox" []].
Proof.
  destruct (new_Fox_without_model (mkWorld ∅ [1; 2]%nat ∅ (Some []) new_AnimationHolder))
    as (w' & Hrun & Hscene & _ & _ & Hui); [reflexivity|].
  exists w'. split_and!; [exact Hrun | exact Hscene | exact Hui].
Defined.

(** X11. When a GLTF with three animations or more is loaded under
    'foxModel', the constructor of [Fox] returns a Fox on that GLTF.  The
    model group is then the last child of the scene, the other children
    being as before; it has scale 0.02 on every axis and all its meshes cast
    a shadow; no other object has changed; the holder is one built by the
    constructor; and the debug panel, when there is one, has the new folder
    "fox" with the controllers playIdle, playWalking and playRunning. *)
Theorem new_Fox_builds (w : World) (g : GLTF) (c0 c1 c2 : AnimationClip)
    (tree : Object3D) :
  items w !! "foxModel" = Some g →
  GLTF_animations g !! 0%nat = Some c0 →
  GLTF_animations g !! 1%nat = Some c1 →
  GLTF_animations g !! 2%nat = Some c2 →
  objects w !! GLTF_scene g = Some tree →
  ∃ this w' tree',
    new_Fox w = (Normal this, w') ∧
    gltf this = g ∧
    modelGroup this = GLTF_scene g ∧
    debugFolder this = length <$> debugUI w ∧
    scene w' = remove_first (GLTF_scene g) (scene w) ++ [GLTF_scene g] ∧
    objects w' !! GLTF_scene g = Some tree' ∧
    scale_of tree' = (0.02, 0.02, 0.02)%Q ∧
    meshes_cast_shadow tree' = true ∧
    without_mesh_shadows tree' =
      without_mesh_shadows (scale_set 0.02 0.02 0.02 tree) ∧
    (∀ r, r ≠ GLTF_scene g → objects w' !! r = objects w !! r) ∧
    built (animationHolder w') ∧
    debugUI w' =
      (λ fs, fs ++ [mkGUI "fox" ["playIdle"; "playWalking"; "playRunning"]])
        <$> debugUI w.
Proof.
  intros Hitems H0 H1 H2 Htree.
  destruct (FoxExtra.configureAnimation_run _ _ _ _ H0 H1 H2)
    as (h & r0 & r1 & r2 & Hconf & _).
  exists (mkFox g (GLTF_scene g) (length <$> debugUI w)),
         (placed g w h ["playIdle"; "playWalking"; "playRunning"]%string),
         (traverse castShadowOnMesh (scale_set 0.02 0.02 0.02 tree)).
  split; [by apply new_Fox_run|]. simpl.
  split_and!.
  - done.
  - done.
  - done.
  - done.
  - by rewrite !lookup_alter_eq, Htree.
  - destruct tree as [[m c s] children]. by destruct m.
  - apply traverse_meshes_cast_shadow.
  - apply traverse_without_mesh_shadows.
  - intros r Hr. by rewrite !lookup_alter_ne.
  - by apply (built_new (GLTF_animations g)).
  - done.
Qed.

Lemma new_Fox_builds_witness :
  ∃ this w' tree',
    new_Fox sample_world = (Normal this, w') ∧
    modelGroup this = 5%nat ∧
    scene w' = [1; 2; 5]%nat ∧
    objects w' !! 5%nat = Some tree' ∧
    meshes_cast_shadow tree' = true ∧
    built (animationHolder w').
Proof.
  destruct (new_Fox_builds sample_world (mkGLTF 5%nat [10; 11; 12]%nat)
              10%nat 11%nat 12%nat fox_tree)
    as (this & w' & tree' & Hrun & _ & Hmg & _ & Hscene & Htree & _ & Hcast & _ & _
        & Hbuilt & _); [reflexivity ..|].
  exists this, w', tree'.
  split_and!; [exact Hrun | exact Hmg | exact Hscene | exact Htree | exact Hcast
              | exact Hbuilt].
Defined.

(** X12. When the GLTF loaded under 'foxModel' has fewer than three
    animations, the constructor of [Fox] throws a [TypeError], but only after
    [configureModel]: the model group is already a child of the scene, and
    the folder "fox" is in the debug panel, without controllers.  The holder
    has no "current" entry. *)
Theorem new_Fox_too_few_animations (w : World) (g : GLTF) :
  items w !! "foxModel" = Some g →
  (length (GLTF_animations g) < 3)%nat →
  ∃ w',
    new_Fox w = (Throw TypeError, w') ∧
    GLTF_scene g ∈ scene w' ∧
    debugUI w' = (λ fs, fs ++ [mkGUI "fox" []]) <$> debugUI w ∧
    actions (animationHolder w') !! "current" = None.
Proof.
  intros Hitems Hlen.
  destruct (FoxExtra.configureAnimation_throw _ Hlen) as (h & Hconf & Hcur & _).
  eexists. split; [by apply new_Fox_throw|]. simpl.
  split_and!; [|done|done]. apply elem_of_app. right. by apply list_elem_of_singleton.
Qed.

Lemma new_Fox_too_few_animations_witness :
  ∃ w',
    new_Fox (mkWorld {[ 5%nat := fox_tree ]} [1; 2]%nat
               {[ "foxModel"%string := mkGLTF 5%nat [10; 11]%nat ]} None
               new_AnimationHolder) = (Throw TypeError, w') ∧
    5%nat ∈ scene w'.
Proof.
  destruct (new_Fox_too_few_animations
              (mkWorld {[ 5%nat := fox_tree ]} [1; 2]%nat
                 {[ "foxModel"%string := mkGLTF 5%nat [10; 11]%nat ]} None
                 new_AnimationHolder)
              (mkGLTF 5%nat [10; 11]%nat))
    as (w' & Hrun & Hin & _); [reflexivity | simpl; lia |].
  exists w'. split; [exact Hrun | exact Hin].
Defined.

(** X13. [destroy] undoes what the constructor did to the scene and nothing
    else: when the model group was no child of the scene before, building a
    Fox and destroying it leaves the children of the scene as they were,
    while the objects, the debug panel with the folder "fox", and the holder
    stay as the constructor left them. *)
Theorem destroy_after_new_Fox (w : World) (g : GLTF) (c0 c1 c2 : AnimationClip) :
  items w !! "foxModel" = Some g →
  GLTF_animations g !! 0%nat = Some c0 →
  GLTF_animations g !! 1%nat = Some c1 →
  GLTF_animations g !! 2%nat = Some c2 →
  GLTF_scene g ∉ scene w →
  ∃ this w1 w2,
    new_Fox w = (Normal this, w1) ∧
    destroy this w1 = (Normal tt, w2) ∧
    scene w2 = scene w ∧
    objects w2 = objects w1 ∧
    debugUI w2 = debugUI w1 ∧
    animationHolder w2 = animationHolder w1.
Proof.
  intros Hitems H0 H1 H2 Hnotin.
  destruct (FoxExtra.configureAnimation_run _ _ _ _ H0 H1 H2)
    as (h & r0 & r1 & r2 & Hconf & _).
  eexists _, _, _. split; [by apply new_Fox_run|].
  split; [reflexivity|]. simpl. split_and!; try done.
  rewrite (remove_first_absent _ _ Hnotin). by apply remove_first_push.
Qed.

Lemma destroy_after_new_Fox_witness :
  ∃ this w1 w2,
    new_Fox sample_world = (Normal this, w1) ∧
    destroy this w1 = (Normal tt, w2) ∧
    scene w2 = [1; 2]%nat ∧
    debugUI w2 = debugUI w1.
Proof.
  destruct (destroy_after_new_Fox sample_world (mkGLTF 5%nat [10; 11; 12]%nat)
              10%nat 11%nat 12%nat)
    as (this & w1 & w2 & Hnew & Hdestroy & Hscene & _ & Hui & _);
    [reflexivity | reflexivity | reflexivity | reflexivity | |].
  { simpl. rewrite !not_elem_of_cons. split_and!; [lia | lia | apply not_elem_of_nil]. }
  exists this, w1, w2.
  split_and!; [exact Hnew | exact Hdestroy | exact Hscene | exact Hui].
Defined.

End FoxObjectFacts.

(** ** More on the lifecycle of the viewer component *)

Module ViewerExtra.
Import ThreeViewer Consumers JsFacts ViewerFacts.

Lemma consume_run (k : Consumer) (p : nat) (c : ThreeViewerComponent) :
  consume k p c = (Normal tt, called (forwarded k p) c).
Proof. destruct k; apply optional_Engine_call_run. Qed.



(** X15. [ngOnDestroy] does not detach the consumers from the engine: a
    consumer called after [ngOnDestroy] still reaches the engine, which
    receives the call after its [destroy]. *)
Theorem consume_after_ngOnDestroy (k : Consumer) (p : nat)
    (c : ThreeViewerComponent) (e : Engine) :
  engine c = Some e →
  ∃ c',
    (ngOnDestroy;; consume k p) c = (Normal tt, c') ∧
    engine c' =
      Some (mkEngine (canvas e) (received e ++ [EngineDestroy; forwarded k p])).
Proof.
  intros He. eexists. split.
  - rewrite (bind_Normal _ _ _ _ _ (ngOnDestroy_run c)). apply consume_run.
  - unfold called. rewrite He. simpl. by rewrite <- app_assoc.
Qed.

Lemma consume_after_ngOnDestroy_witness :
  ∃ c',
    (ngOnDestroy;; consume forwardUpdate 16%nat) running = (Normal tt, c') ∧
    engine c' = Some (mkEngine 7%nat [EngineDestroy; EngineUpdate 16%nat]).
Proof.
  apply (consume_after_ngOnDestroy forwardUpdate 16%nat running (mkEngine 7%nat [])).
  reflexivity.
Defined.

(** X16. One [ngOnInit] followed by one [ngOnDestroy], on a component with a
    canvas handle: both return normally, and the engine that [ngOnInit] built
    on the canvas element has been released exactly once, whatever engine
    the component held before. *)
Theorem ngOnInit_then_ngOnDestroy (c : ThreeViewerComponent) (r : ElementRef) :
  canvasRef c = Some r →
  ∃ c' e,
    (ngOnInit;; ngOnDestroy) c = (Normal tt, c') ∧
    engine c' = Some e ∧
    canvas e = nativeElement r ∧
    releases c' = 1%nat ∧
    registered c' = [forwardUpdate; forwardResize; forwardReactToPointer].
Proof.
  intros Hc. eexists _, _. split.
  - rewrite (bind_Normal _ _ _ _ _ (ngOnInit_run c r Hc)). apply ngOnDestroy_run.
  - unfold called. simpl. split_and!; reflexivity.
Qed.

Lemma ngOnInit_then_ngOnDestroy_witness :
  ∃ c' e,
    (ngOnInit;; ngOnDestroy) (snd (times 2 ngOnDestroy running)) = (Normal tt, c') ∧
    engine c' = Some e ∧
    canvas e = 7%nat ∧
    releases c' = 1%nat ∧
    registered c' = [forwardUpdate; forwardResize; forwardReactToPointer].
Proof.
  apply (ngOnInit_then_ngOnDestroy (snd (times 2 ngOnDestroy running))
           (mkElementRef 7%nat)).
  reflexivity.
Defined.

End ViewerExtra.
